(** * pip-services-data-go: memory and file persistence

    A shallow embedding of [MemoryPersistence] (open / load / save / clear /
    close over a pluggable loader and saver, guarded by a [sync.RWMutex]),
    of [FilePersistence] and of [IdentifiableFilePersistence], followed by
    the properties of these components that the specification states. *)

From Stdlib Require Import ZArith String Lia.
From stdpp Require Import base option list.

Local Open Scope string_scope.
Local Open Scope list_scope.

(** ** Go values shared by all components *)

(** A Go [error]; the nil error is [None] of [option error]. *)
Definition error := string.

(** How a call of a Go function can end.
    - [Ret a s]: it returns [a], leaving the state [s];
    - [Panic msg s]: it panics (deferred calls have run);
    - [Fatal msg s]: the runtime aborts the process (no deferred call runs);
    - [Block s]: the goroutine is parked on a lock and goes no further. *)
Inductive outcome (S A : Type) : Type :=
| Ret (a : A) (s : S)
| Panic (msg : string) (s : S)
| Fatal (msg : string) (s : S)
| Block (s : S).
Arguments Ret {S A} a s.
Arguments Panic {S A} msg s.
Arguments Fatal {S A} msg s.
Arguments Block {S A} s.

(** A call that has no receiver state: it returns or panics. *)
Inductive result (A : Type) : Type :=
| Returns (a : A)
| Panics (msg : string).
Arguments Returns {A} a.
Arguments Panics {A} msg.

(** A Go pointer: nil, or the address of a cell. *)
Inductive pointer (A : Type) : Type :=
| null
| ref (target : A).
Arguments null {A}.
Arguments ref {A} target.

(** [&x]: the address of a variable (here: of a by-value parameter). *)
Definition address_of {A : Type} (x : A) : pointer A := ref x.

(** [p == nil] *)
Definition is_nil {A : Type} (p : pointer A) : bool :=
  match p with null => true | ref _ => false end.

(** ** sync.RWMutex

    The lock is not reentrant and has no owner: [RLock] waits while the
    write lock is held, [Lock] waits while anybody holds the lock. *)
Module RWMutex.

Record t : Type := mk { writer : bool; readers : nat }.

(** The zero value: an unlocked mutex. *)
Definition zero : t := mk false 0.

#[global] Instance eq_dec : EqDecision t.
Proof. solve_decision. Defined.

Inductive attempt : Type :=
| Acquired (m : t)
| Parked
| Misuse (msg : string).

Definition Lock (m : t) : attempt :=
  if writer m || negb (readers m =? 0)%nat then Parked
  else Acquired (mk true (readers m)).

Definition Unlock (m : t) : attempt :=
  if writer m then Acquired (mk false (readers m))
  else Misuse "sync: Unlock of unlocked RWMutex".

Definition RLock (m : t) : attempt :=
  if writer m then Parked
  else Acquired (mk (writer m) (S (readers m))).

Definition RUnlock (m : t) : attempt :=
  match readers m with
  | O => Misuse "sync: RUnlock of unlocked RWMutex"
  | S n => Acquired (mk (writer m) n)
  end.

End RWMutex.

(** ** What the store uses from Go's libraries

    [encoding/json], [reflect] and the converter of pip-services3-commons-go
    are outside this repository; the store is modelled over any
    implementation of them. *)
Class GoRuntime : Type := {
  (** values of type [interface{}] *)
  Any : Type;
  (** the nil [interface{}], which [make([]interface{}, n)] fills a slice with *)
  nil_value : Any;
  (** a non-nil [reflect.Type] *)
  reflect_Type : Type;
  (** a [[]byte] *)
  Bytes : Type;
  (** everything outside the store that a loader or saver reads or writes *)
  World : Type;
  (** [convert.MapConverter.ToNullableMap(v)] *)
  ToNullableMap : Any -> Any;
  (** [json.Marshal(v)]: the bytes, or the error *)
  json_Marshal : Any -> Bytes + error;
  (** [reflect.New(t).Interface()] for a non-nil [t], seen through the
      pointer: the zero value of [t] *)
  reflect_New : reflect_Type -> Any;
  (** [json.Unmarshal(data, &x)]: the new content of [x] and the error *)
  json_Unmarshal : Bytes -> Any -> Any * option error
}.

(** ** MemoryPersistence *)
Section MemoryPersistence.
Context `{RT : GoRuntime}.

(** [ILoader]: [Load(correlation_id) (data []interface{}, err error)];
    a nil slice is [None]. *)
Record ILoader : Type := {
  ILoader_Load : string -> World -> option (list Any) * option error * World
}.

(** [ISaver]: [Save(correlation_id, items []interface{}) error] *)
Record ISaver : Type := {
  ISaver_Save : string -> list Any -> World -> option error * World
}.

(** The struct. [_logger] is kept as the log of [Trace] calls in the
    machine state below. *)
Record MemoryPersistence : Type := mkMemoryPersistence {
  _items : list Any;
  _loader : option ILoader;
  _saver : option ISaver;
  _opened : bool;
  _prototype : option reflect_Type;
  _lockMutex : RWMutex.t
}.

(** [&MemoryPersistence{}] *)
Definition zero_MemoryPersistence : MemoryPersistence :=
  mkMemoryPersistence [] None None false None RWMutex.zero.

Definition with_items (v : list Any) (c : MemoryPersistence) :=
  mkMemoryPersistence v (_loader c) (_saver c) (_opened c) (_prototype c) (_lockMutex c).
Definition with_loader (v : option ILoader) (c : MemoryPersistence) :=
  mkMemoryPersistence (_items c) v (_saver c) (_opened c) (_prototype c) (_lockMutex c).
Definition with_saver (v : option ISaver) (c : MemoryPersistence) :=
  mkMemoryPersistence (_items c) (_loader c) v (_opened c) (_prototype c) (_lockMutex c).
Definition with_opened (v : bool) (c : MemoryPersistence) :=
  mkMemoryPersistence (_items c) (_loader c) (_saver c) v (_prototype c) (_lockMutex c).
Definition with_prototype (v : option reflect_Type) (c : MemoryPersistence) :=
  mkMemoryPersistence (_items c) (_loader c) (_saver c) (_opened c) v (_lockMutex c).
Definition with_lockMutex (v : RWMutex.t) (c : MemoryPersistence) :=
  mkMemoryPersistence (_items c) (_loader c) (_saver c) (_opened c) (_prototype c) v.

(** Calls that leave the store, in the order they are made. *)
Inductive call : Type :=
| CallLoad (correlationId : string)
| CallSave (correlationId : string) (items : list Any)
| CallTrace (correlationId : string) (message : string) (args : list nat).

(** The receiver [c], the world of the collaborators, and the calls made
    so far (latest first). *)
Record machine : Type := mkMachine {
  this : MemoryPersistence;
  world : World;
  calls : list call
}.

Definition M (A : Type) : Type := machine -> outcome machine A.

Definition ret {A : Type} (a : A) : M A := fun m => Ret a m.

Definition bind {A B : Type} (c : M A) (k : A -> M B) : M B := fun m =>
  match c m with
  | Ret a m' => k a m'
  | Panic msg m' => Panic msg m'
  | Fatal msg m' => Fatal msg m'
  | Block m' => Block m'
  end.

Definition panic {A : Type} (msg : string) : M A := fun m => Panic msg m.

(** [defer d; body]: [d] runs when [body] returns or panics, and does not
    run when the goroutine never leaves [body]. *)
Definition defer {A : Type} (d : M unit) (body : M A) : M A := fun m =>
  match body m with
  | Ret a m' =>
      match d m' with
      | Ret _ m'' => Ret a m''
      | Panic msg m'' => Panic msg m''
      | Fatal msg m'' => Fatal msg m''
      | Block m'' => Block m''
      end
  | Panic msg m' =>
      match d m' with
      | Ret _ m'' => Panic msg m''
      | Panic msg' m'' => Panic msg' m''
      | Fatal msg' m'' => Fatal msg' m''
      | Block m'' => Block m''
      end
  | Fatal msg m' => Fatal msg m'
  | Block m' => Block m'
  end.

Definition get_this : M MemoryPersistence := fun m => Ret (this m) m.

Definition modify_this (f : MemoryPersistence -> MemoryPersistence) : M unit :=
  fun m => Ret tt (mkMachine (f (this m)) (world m) (calls m)).

Definition record (c : call) (m : machine) : machine :=
  mkMachine (this m) (world m) (c :: calls m).

Definition on_lock (op : RWMutex.t -> RWMutex.attempt) : M unit := fun m =>
  match op (_lockMutex (this m)) with
  | RWMutex.Acquired l =>
      Ret tt (mkMachine (with_lockMutex l (this m)) (world m) (calls m))
  | RWMutex.Parked => Block m
  | RWMutex.Misuse msg => Fatal msg m
  end.

(** [c._logger.Trace(correlationId, message, args...)] *)
Definition Trace (correlationId message : string) (args : list nat) : M unit :=
  fun m => Ret tt (record (CallTrace correlationId message args) m).

(** [c._loader.Load(correlationId)] on a non-nil loader *)
Definition call_Load (l : ILoader) (correlationId : string)
  : M (option (list Any) * option error) := fun m =>
  let '(items, err, w) := ILoader_Load l correlationId (world m) in
  Ret (items, err) (mkMachine (this m) w (CallLoad correlationId :: calls m)).

(** [c._saver.Save(correlationId, items)] on a non-nil saver *)
Definition call_Save (s : ISaver) (correlationId : string) (items : list Any)
  : M (option error) := fun m =>
  let '(err, w) := ISaver_Save s correlationId items (world m) in
  Ret err (mkMachine (this m) w (CallSave correlationId items :: calls m)).

End MemoryPersistence.

Declare Scope go_scope.
Delimit Scope go_scope with go.
Notation "x <- c ;; k" := (bind c (fun x => k))
  (at level 100, c at next level, right associativity) : go_scope.
Notation "c ;; k" := (bind c (fun _ => k))
  (at level 100, right associativity) : go_scope.

Section Methods.
Context `{RT : GoRuntime}.
Local Open Scope go_scope.

(** [NewEmptyMemoryPersistence(prototype)]; a nil result is [None]. *)
Definition NewEmptyMemoryPersistence (prototype : option reflect_Type)
  : option MemoryPersistence :=
  match prototype with
  | None => None
  | Some _ =>
      let mp := zero_MemoryPersistence in
      let mp := with_prototype prototype mp in
      (* mp._logger = *log.NewCompositeLogger() *)
      let mp := with_items [] mp in
      Some mp
  end.

(** [NewMemoryPersistence(prototype, loader, saver)]; a nil result is
    [None]. The body has no assignment to [mp._prototype]. *)
Definition NewMemoryPersistence (prototype : option reflect_Type)
    (loader : option ILoader) (saver : option ISaver)
  : option MemoryPersistence :=
  match prototype with
  | None => None
  | Some _ =>
      let mp := zero_MemoryPersistence in
      let mp := with_items [] mp in
      let mp := with_loader loader mp in
      let mp := with_saver saver mp in
      (* mp._logger = *log.NewCompositeLogger() *)
      Some mp
  end.

Definition IsOpen (c : MemoryPersistence) : bool := _opened c.

(** [reflect.New(c._prototype).Interface()]: [reflect.New] panics on a
    nil type. *)
Definition new_value (prototype : option reflect_Type) : M Any :=
  match prototype with
  | None => panic "reflect: New(nil)"
  | Some t => ret (reflect_New t)
  end.

(** [c._items[i] = x] *)
Definition assign_item (i : nat) (x : Any) : M unit :=
  c <- get_this ;;
  if decide (i < length (_items c))
  then modify_this (with_items (<[i := x]> (_items c)))
  else panic "runtime error: index out of range".

(** The body of [for i, v := range items] in [load], from index [i] on. *)
Fixpoint load_range (i : nat) (items : list Any) : M unit :=
  match items with
  | [] => ret tt
  | v :: rest =>
      let item := ToNullableMap v in
      match json_Marshal item with
      | inr errJson =>
          panic "MemoryPersistence.Load Error can't convert from Json to any type"
      | inl jsonMarshalStr =>
          c <- get_this ;;
          value <- new_value (_prototype c) ;;
          (* the error that json.Unmarshal returns is not looked at *)
          let value' := fst (json_Unmarshal jsonMarshalStr value) in
          assign_item i value' ;;
          load_range (S i) rest
      end
  end.

Definition load (correlationId : string) : M (option error) :=
  c <- get_this ;;
  match _loader c with
  | None => ret None
  | Some l =>
      r <- call_Load l correlationId ;;
      let '(items, err) := r in
      match err, items with
      | None, Some items =>
          modify_this (with_items (replicate (length items) nil_value)) ;;
          load_range 0 items ;;
          c <- get_this ;;
          let length := length (_items c) in
          Trace correlationId "Loaded %d items" [length]
      | _, _ => ret tt
      end ;;
      ret err
  end.

Definition Open (correlationId : string) : M (option error) :=
  on_lock RWMutex.Lock ;;
  defer (on_lock RWMutex.Unlock)
    (err <- load correlationId ;;
     match err with
     | None => modify_this (with_opened true) ;; ret err
     | Some _ => ret err
     end).

Definition Save (correlationId : string) : M (option error) :=
  on_lock RWMutex.RLock ;;
  defer (on_lock RWMutex.RUnlock)
    (c <- get_this ;;
     match _saver c with
     | None => ret None
     | Some s =>
         err <- call_Save s correlationId (_items c) ;;
         match err with
         | None =>
             c <- get_this ;;
             let length := length (_items c) in
             Trace correlationId "Saved %d items" [length] ;;
             ret err
         | Some _ => ret err
         end
     end).

Definition Close (correlationId : string) : M (option error) :=
  err <- Save correlationId ;;
  modify_this (with_opened false) ;;
  ret err.

Definition Clear (correlationId : string) : M (option error) :=
  on_lock RWMutex.Lock ;;
  defer (on_lock RWMutex.Unlock)
    (modify_this (with_items []) ;;
     Trace correlationId "Cleared items" [] ;;
     Save correlationId).

(** [json.Marshal] accepts the map made of the loaded item [v]. *)
Definition marshals (v : Any) : Prop :=
  exists b, json_Marshal (ToNullableMap v) = inl b.

(** What the loop of [load] stores for the loaded item [v] when the
    prototype is [t]: whatever [json.Unmarshal] left in the new value,
    error or not. *)
Definition stored_for (t : reflect_Type) (v x : Any) : Prop :=
  exists b, json_Marshal (ToNullableMap v) = inl b /\
            x = fst (json_Unmarshal b (reflect_New t)).

(** What [Save] adds to the log of calls after the saver returned [err]. *)
Definition saved_trace (correlationId : string) (items : list Any)
    (err : option error) : list call :=
  match err with
  | None => [CallTrace correlationId "Saved %d items" [length items]]
  | Some _ => []
  end.

(** The lock is held by nobody. *)
Definition lock_free (m : machine) : Prop :=
  _lockMutex (this m) = RWMutex.zero.

(** Nobody holds the write lock (readers may be in). *)
Definition no_writer (m : machine) : Prop :=
  RWMutex.writer (_lockMutex (this m)) = false.

#[export] Instance lock_free_dec (m : machine) : Decision (lock_free m).
Proof. unfold lock_free. apply _. Defined.

#[export] Instance no_writer_dec (m : machine) : Decision (no_writer m).
Proof. unfold no_writer. apply _. Defined.

(** The two panics raised in the loop of [load]. *)
Definition load_panic (msg : string) : Prop :=
  msg = "MemoryPersistence.Load Error can't convert from Json to any type" \/
  msg = "reflect: New(nil)".

(** The fields set at construction are the same in [c] and [c']. *)
Definition same_wiring (c c' : MemoryPersistence) : Prop :=
  _loader c' = _loader c /\ _saver c' = _saver c /\ _prototype c' = _prototype c.

(** The calls made on the way from [m] to [m'] include no call of the
    saver. *)
Definition no_save_between (m m' : machine) : Prop :=
  exists new, calls m' = new ++ calls m /\
              forall correlationId items, ~ In (CallSave correlationId items) new.

End Methods.

(** ** Collaborators of the file-backed stores

    [JsonFilePersister], [config.ConfigParams] and
    [IdentifiableMemoryPersistence] are used by the two file-backed stores
    and declared elsewhere; the stores are modelled over any implementation
    of them. *)
Class Collaborators `{RT : GoRuntime} : Type := {
  JsonFilePersister : Type;
  (** [*NewJsonFilePersister(path)] *)
  NewJsonFilePersister : string -> JsonFilePersister;
  (** [JsonFilePersister.Load] and [JsonFilePersister.Save], which make a persister an
      [ILoader] and an [ISaver] *)
  JsonFilePersister_Load :
    JsonFilePersister -> string -> World -> option (list Any) * option error * World;
  JsonFilePersister_Save :
    JsonFilePersister -> string -> list Any -> World -> option error * World;
  ConfigParams : Type;
  (** [JsonFilePersister.Configure(config)]: the configured persister *)
  JsonFilePersister_Configure : ConfigParams -> JsonFilePersister -> JsonFilePersister;
  IdentifiableMemoryPersistence : Type;
  (** [NewIdentifiableMemoryPersistence(prototype, loader, saver)]; a nil
      result is [None] *)
  NewIdentifiableMemoryPersistence :
    option reflect_Type -> option ILoader -> option ISaver ->
    option IdentifiableMemoryPersistence
}.

Section FilePersistence.
Context `{CO : Collaborators}.

(** [&persister] used as an [ILoader] and as an [ISaver]: the interface
    value holds the address of the constructor's own copy of the
    persister, which nothing assigns to afterwards. *)
Definition as_ILoader (p : pointer JsonFilePersister) : option ILoader :=
  match p with
  | null => None
  | ref persister => Some {| ILoader_Load := JsonFilePersister_Load persister |}
  end.

Definition as_ISaver (p : pointer JsonFilePersister) : option ISaver :=
  match p with
  | null => None
  | ref persister => Some {| ISaver_Save := JsonFilePersister_Save persister |}
  end.

Record FilePersistence : Type := mkFilePersistence {
  FilePersistence_MemoryPersistence : MemoryPersistence;
  FilePersistence_persister : JsonFilePersister
}.

(** [NewFilePersistence(prototype, persister)]: [persister] is passed by
    value. [*NewMemoryPersistence(...)] dereferences the result. *)
Definition NewFilePersistence (prototype : option reflect_Type)
    (persister : JsonFilePersister) : result FilePersistence :=
  let persister :=
    if is_nil (address_of persister) then NewJsonFilePersister "" else persister in
  let c_persister := persister in
  match NewMemoryPersistence prototype
          (as_ILoader (address_of persister)) (as_ISaver (address_of persister)) with
  | None => Panics "runtime error: invalid memory address or nil pointer dereference"
  | Some mp => Returns (mkFilePersistence mp c_persister)
  end.

(** [FilePersistence.Configure(conf)] *)
Definition FilePersistence_Configure (conf : ConfigParams) (c : FilePersistence)
  : FilePersistence :=
  mkFilePersistence (FilePersistence_MemoryPersistence c)
    (JsonFilePersister_Configure conf (FilePersistence_persister c)).

Record IdentifiableFilePersistence : Type := mkIdentifiableFilePersistence {
  IdentifiableFilePersistence_IdentifiableMemoryPersistence :
    IdentifiableMemoryPersistence;
  IdentifiableFilePersistence_persister : JsonFilePersister
}.

(** [NewIdentifiableFilePersistence(prototype, persister)] *)
Definition NewIdentifiableFilePersistence (prototype : option reflect_Type)
    (persister : JsonFilePersister) : result IdentifiableFilePersistence :=
  let persister :=
    if is_nil (address_of persister) then NewJsonFilePersister "" else persister in
  match NewIdentifiableMemoryPersistence prototype
          (as_ILoader (address_of persister)) (as_ISaver (address_of persister)) with
  | None => Panics "runtime error: invalid memory address or nil pointer dereference"
  | Some imp => Returns (mkIdentifiableFilePersistence imp persister)
  end.

(** [IdentifiableFilePersistence.Configure(config)]. The first
    statement, [c.Configure(config)], is a call of this same method: the
    receiver type declares [Configure], which hides the one promoted from
    the embedded struct. [stack] is the number of frames of this method
    that the goroutine's stack can still take; the runtime aborts the
    process when it is used up. *)
Fixpoint IdentifiableFilePersistence_Configure (stack : nat) (config : ConfigParams)
    (c : IdentifiableFilePersistence) : outcome IdentifiableFilePersistence unit :=
  match stack with
  | O => Fatal "runtime: goroutine stack exceeds 1000000000-byte limit" c
  | S stack' =>
      match IdentifiableFilePersistence_Configure stack' config c with
      | Ret _ c' =>
          Ret tt (mkIdentifiableFilePersistence
                    (IdentifiableFilePersistence_IdentifiableMemoryPersistence c')
                    (JsonFilePersister_Configure config
                       (IdentifiableFilePersistence_persister c')))
      | stopped => stopped
      end
  end.

End FilePersistence.

(** ** A small runtime to run the stores on

    Records are flat structs of booleans, integers and strings, the way the
    stores' test records are; a JSON text is kept as the document it
    denotes. *)
Module Fixture.

Inductive scalar : Type :=
| SNull
| SBool (b : bool)
| SInt (z : Z)
| SString (s : string)
| SFunc.

Inductive value : Type :=
| VNil
| VScalar (x : scalar)
| VMap (entries : list (string * scalar))
| VStruct (fields : list (string * scalar)).

Inductive kind : Type := KBool | KInt | KString.

(** A struct type: its fields and their kinds. *)
Definition struct_type : Type := list (string * kind).

Inductive jvalue : Type :=
| JNull
| JBool (b : bool)
| JNumber (z : Z)
| JString (s : string).

(** A JSON document: a single value, or an object of values. *)
Inductive json : Type :=
| JValue (j : jvalue)
| JObject (members : list (string * jvalue)).

Definition zero_of (k : kind) : scalar :=
  match k with
  | KBool => SBool false
  | KInt => SInt 0
  | KString => SString ""
  end.

Definition new (t : struct_type) : value :=
  VStruct (map (fun f => (fst f, zero_of (snd f))) t).

(** Maps and structs become a map, anything else is not a map. *)
Definition to_nullable_map (v : value) : value :=
  match v with
  | VMap entries => VMap entries
  | VStruct fields => VMap fields
  | _ => VNil
  end.

Definition marshal_scalar (x : scalar) : jvalue + error :=
  match x with
  | SNull => inl JNull
  | SBool b => inl (JBool b)
  | SInt z => inl (JNumber z)
  | SString s => inl (JString s)
  | SFunc => inr "json: unsupported type: func()"
  end.

Fixpoint marshal_members (entries : list (string * scalar))
  : list (string * jvalue) + error :=
  match entries with
  | [] => inl []
  | (k, x) :: rest =>
      match marshal_scalar x with
      | inr e => inr e
      | inl j =>
          match marshal_members rest with
          | inr e => inr e
          | inl js => inl ((k, j) :: js)
          end
      end
  end.

Definition marshal (v : value) : json + error :=
  match v with
  | VNil => inl (JValue JNull)
  | VScalar x =>
      match marshal_scalar x with
      | inr e => inr e
      | inl j => inl (JValue j)
      end
  | VMap entries | VStruct entries =>
      match marshal_members entries with
      | inr e => inr e
      | inl js => inl (JObject js)
      end
  end.

(** Decoding one JSON value into a field that holds [old]: the new
    content, or the type error (the field then keeps its content). *)
Definition decode_field (j : jvalue) (old : scalar) : scalar + error :=
  match j, old with
  | JNull, _ => inl old
  | JBool b, SBool _ => inl (SBool b)
  | JNumber z, SInt _ => inl (SInt z)
  | JString s, SString _ => inl (SString s)
  | JBool _, _ => inr "json: cannot unmarshal bool into Go struct field"
  | JNumber _, _ => inr "json: cannot unmarshal number into Go struct field"
  | JString _, _ => inr "json: cannot unmarshal string into Go struct field"
  end.

Fixpoint set_field (name : string) (j : jvalue) (fields : list (string * scalar))
  : list (string * scalar) * option error :=
  match fields with
  | [] => ([], None)
  | (n, old) :: rest =>
      if String.eqb n name then
        match decode_field j old with
        | inl x => ((n, x) :: rest, None)
        | inr e => ((n, old) :: rest, Some e)
        end
      else
        let '(rest', e) := set_field name j rest in ((n, old) :: rest', e)
  end.

(** Members are decoded in document order; decoding goes on after a type
    error and the first error is the one returned. *)
Fixpoint unmarshal_members (members : list (string * jvalue))
    (fields : list (string * scalar)) : list (string * scalar) * option error :=
  match members with
  | [] => (fields, None)
  | (k, j) :: rest =>
      let '(fields', e) := set_field k j fields in
      let '(fields'', e') := unmarshal_members rest fields' in
      (fields'', match e with Some _ => e | None => e' end)
  end.

Definition unmarshal (data : json) (x : value) : value * option error :=
  match x, data with
  | _, JValue JNull => (x, None)
  | VStruct fields, JObject members =>
      let '(fields', e) := unmarshal_members members fields in
      (VStruct fields', e)
  | _, _ => (x, Some "json: cannot unmarshal into Go value")
  end.

(** The external medium: what is stored there, if anything, and whether
    reading and writing it fail. *)
Record medium : Type := mkMedium {
  stored : option (list value);
  broken : bool
}.

#[export] Instance runtime : GoRuntime := {|
  Any := value;
  nil_value := VNil;
  reflect_Type := struct_type;
  Bytes := json;
  World := medium;
  ToNullableMap := to_nullable_map;
  json_Marshal := marshal;
  reflect_New := new;
  json_Unmarshal := unmarshal
|}.

Definition medium_loader : ILoader :=
  {| ILoader_Load := fun _ w =>
       if broken w then (None, Some "medium unreadable", w)
       else (stored w, None, w) |}.

Definition medium_saver : ISaver :=
  {| ISaver_Save := fun _ items w =>
       if broken w then (Some "medium unwritable", w)
       else (None, mkMedium (Some items) false) |}.

(** Modelled from the spec: [JsonFilePersister] (JsonFilePersister.go
    is not among the sources). A persister holds the path it was
    constructed with, [Configure] sets the path from the [path]
    parameter, and an empty path makes loading and saving do nothing. *)
Record persister : Type := mkPersister { _path : string }.

Definition persister_Load (p : persister) (correlation_id : string) (w : medium)
  : option (list value) * option error * medium :=
  if String.eqb (_path p) "" then (None, None, w)
  else ILoader_Load medium_loader correlation_id w.

Definition persister_Save (p : persister) (correlation_id : string)
    (items : list value) (w : medium) : option error * medium :=
  if String.eqb (_path p) "" then (None, w)
  else ISaver_Save medium_saver correlation_id items w.

Fixpoint get_param (key : string) (conf : list (string * string)) : option string :=
  match conf with
  | [] => None
  | (k, v) :: rest => if String.eqb k key then Some v else get_param key rest
  end.

Definition persister_Configure (conf : list (string * string)) (p : persister)
  : persister :=
  mkPersister (default (_path p) (get_param "path" conf)).

(** Modelled from the spec: [IdentifiableMemoryPersistence]
    (IdentifiableMemoryPersistence.go is not among the sources). An
    identifiable store is a record store with a maximum page size,
    100 by default. *)
Record identifiable : Type := mkIdentifiable {
  base : MemoryPersistence;
  _maxPageSize : nat
}.

#[export] Instance collaborators : Collaborators := {|
  JsonFilePersister := persister;
  NewJsonFilePersister := mkPersister;
  JsonFilePersister_Load := persister_Load;
  JsonFilePersister_Save := persister_Save;
  ConfigParams := list (string * string);
  JsonFilePersister_Configure := persister_Configure;
  IdentifiableMemoryPersistence := identifiable;
  NewIdentifiableMemoryPersistence := fun prototype loader saver =>
    match NewMemoryPersistence prototype loader saver with
    | None => None
    | Some mp => Some (mkIdentifiable mp 100)
    end
|}.

(** The record type of the examples: [struct { Id string; Count int }]. *)
Definition Dummy : struct_type := [("Id", KString); ("Count", KInt)].

Definition dummy (id : string) (count : Z) : value :=
  VStruct [("Id", SString id); ("Count", SInt count)].

(** A store with the given collection, wired to the medium, closed and
    unlocked. *)
Definition store (items : list value) (loader : option ILoader)
    (saver : option ISaver) (prototype : option struct_type) : MemoryPersistence :=
  mkMemoryPersistence items loader saver false prototype RWMutex.zero.

Definition start (c : MemoryPersistence) (w : medium) : machine :=
  mkMachine c w [].

(** A medium that cannot be read or written, and one that holds nothing. *)
Definition corrupt : medium := mkMedium None true.
Definition absent : medium := mkMedium None false.

(** A closed store of [Dummy] records that loads from and saves to the
    medium. *)
Definition wired (items : list value) : MemoryPersistence :=
  store items (Some medium_loader) (Some medium_saver) (Some Dummy).

(** As stored on the medium: a record whose [Count] is a string. *)
Definition mistyped : value :=
  VMap [("Id", SString "2"); ("Count", SString "abc")].

Definition two_records : list value := [dummy "1" 7; dummy "2" 8].

(** A readable and writable medium that holds [items]. *)
Definition holding (items : list value) : medium := mkMedium (Some items) false.

(** A record with a field that cannot be marshalled. *)
Definition unmarshallable : value := VMap [("Id", SFunc)].

End Fixture.

(** * Properties *)

(** ** The lock *)
Section LockFacts.

Lemma RLock_RUnlock (l : RWMutex.t) :
  RWMutex.writer l = false ->
  exists l', RWMutex.RLock l = RWMutex.Acquired l' /\
             RWMutex.RUnlock l' = RWMutex.Acquired l.
Proof.
  destruct l as [w n]; simpl; intros ->.
  exists (RWMutex.mk false (S n)); split; reflexivity.
Qed.

Lemma Lock_Unlock_zero :
  exists l', RWMutex.Lock RWMutex.zero = RWMutex.Acquired l' /\
             RWMutex.Unlock l' = RWMutex.Acquired RWMutex.zero.
Proof. exists (RWMutex.mk true 0); split; reflexivity. Qed.

(** Whoever holds the write lock, [RLock] does not get through. *)
Lemma RLock_under_Lock (l l' : RWMutex.t) :
  RWMutex.Lock l = RWMutex.Acquired l' -> RWMutex.RLock l' = RWMutex.Parked.
Proof.
  unfold RWMutex.Lock, RWMutex.RLock.
  destruct (RWMutex.writer l || negb (RWMutex.readers l =? 0)%nat); [discriminate|].
  intros [= <-]; reflexivity.
Qed.

Lemma Lock_zero_or_parked (l : RWMutex.t) :
  l = RWMutex.zero \/ RWMutex.Lock l = RWMutex.Parked.
Proof.
  destruct l as [[] [|n]]; unfold RWMutex.Lock; simpl; auto.
Qed.

End LockFacts.

Ltac destruct_machine m :=
  let c := fresh "c" in
  destruct m as [c ? ?]; destruct c as [? ? ? ? ? ?];
  unfold lock_free, no_writer in *; simpl in *; subst.

Ltac run :=
  unfold Open, Close, Clear, Save, load, defer, bind, ret, panic, on_lock,
    get_this, modify_this, call_Load, call_Save, Trace, record, IsOpen; simpl.

Section MemoryPersistenceProperties.
Context `{RT : GoRuntime}.

(** *** Open *)

(** C1. When the loader returns an error (with or without items), [Open]
    returns that error and leaves every field of the store as it was:
    the collection is the one before the call and [IsOpen] has not
    changed, so a closed store stays closed. The lock is released. *)
Theorem Open_loader_error (correlationId : string) (m : machine) (l : ILoader)
    (items : option (list Any)) (e : error) (w : World) :
  lock_free m ->
  _loader (this m) = Some l ->
  ILoader_Load l correlationId (world m) = (items, Some e, w) ->
  exists m',
    Open correlationId m = Ret (Some e) m' /\
    _items (this m') = _items (this m) /\
    IsOpen (this m') = IsOpen (this m) /\
    (IsOpen (this m) = false -> IsOpen (this m') = false) /\
    this m' = this m /\
    world m' = w /\
    calls m' = CallLoad correlationId :: calls m.
Proof.
  intros Hfree Hl Hload. destruct_machine m.
  eexists. run. rewrite Hload. simpl.
  destruct items; simpl; (split; [reflexivity|]); simpl; auto 10.
Qed.

(** C6. From a free lock, [Open] returns no error and marks the store
    open, keeping the collection as it is, when there is no loader and
    when the loader returns a nil list and no error. When the loader
    returns an empty list that is not nil, [Open] also returns no error
    and opens the store, but the collection is replaced by the empty one:
    it is as before only if it held nothing. In each case the whole
    machine is the one given. *)
Theorem Open_keeps_collection (correlationId : string) (m : machine) :
  lock_free m ->
  (_loader (this m) = None ->
   Open correlationId m =
     Ret None (mkMachine (with_opened true (this m)) (world m) (calls m))) /\
  (forall (l : ILoader) (w : World),
     _loader (this m) = Some l ->
     ILoader_Load l correlationId (world m) = (None, None, w) ->
     Open correlationId m =
       Ret None
         (mkMachine (with_opened true (this m)) w
            (CallLoad correlationId :: calls m))) /\
  (forall (l : ILoader) (w : World),
     _loader (this m) = Some l ->
     ILoader_Load l correlationId (world m) = (Some [], None, w) ->
     Open correlationId m =
       Ret None
         (mkMachine (with_opened true (with_items [] (this m))) w
            (CallTrace correlationId "Loaded %d items" [0]
             :: CallLoad correlationId :: calls m))).
Proof.
  intros Hfree. destruct_machine m. repeat split.
  - intros ->. reflexivity.
  - intros l w -> Hload. run. rewrite Hload. reflexivity.
  - intros l w -> Hload. run. rewrite Hload. reflexivity.
Qed.

(** *** Save *)

Lemma Save_without_saver (correlationId : string) (m : machine) :
  no_writer m ->
  _saver (this m) = None ->
  Save correlationId m = Ret None m.
Proof.
  intros Hw Hs. destruct_machine m.
  destruct _lockMutex0 as [wr n]; simpl in Hw; subst wr. reflexivity.
Qed.

Lemma Save_with_saver (correlationId : string) (m : machine) (s : ISaver)
    (err : option error) (w : World) :
  no_writer m ->
  _saver (this m) = Some s ->
  ISaver_Save s correlationId (_items (this m)) (world m) = (err, w) ->
  Save correlationId m =
    Ret err
      (mkMachine (this m) w
         (saved_trace correlationId (_items (this m)) err
          ++ CallSave correlationId (_items (this m)) :: calls m)).
Proof.
  intros Hw Hs Hsave. destruct_machine m.
  destruct _lockMutex0 as [wr n]; simpl in Hw; subst wr.
  run. rewrite Hsave. destruct err; reflexivity.
Qed.

(** C5. With no saver, [Save] returns no error, makes no call and leaves
    the machine as it was. With a saver, it makes one call of the saver,
    with the collection the store holds at that moment, returns the
    saver's error and leaves the store as it was. *)
Theorem Save_passes_current_items (correlationId : string) (m : machine) :
  no_writer m ->
  match _saver (this m) with
  | None => Save correlationId m = Ret None m
  | Some s =>
      let r := ISaver_Save s correlationId (_items (this m)) (world m) in
      Save correlationId m =
        Ret (fst r)
          (mkMachine (this m) (snd r)
             (saved_trace correlationId (_items (this m)) (fst r)
              ++ CallSave correlationId (_items (this m)) :: calls m))
  end.
Proof.
  intros Hw. destruct (_saver (this m)) as [s|] eqn:Hs.
  - cbv zeta.
    destruct (ISaver_Save s correlationId (_items (this m)) (world m))
      as [err w] eqn:Hsave.
    exact (Save_with_saver correlationId m s err w Hw Hs Hsave).
  - apply Save_without_saver; assumption.
Qed.

(** *** Close *)

(** C7. [Close] runs [Save] and then marks the store closed, whatever
    [Save] returned, and returns that error. Without a saver nothing is
    called and the error is nil. With a saver, the saver is called once,
    with the collection the store holds, the world is the one the saver
    left, the error is the saver's, and the trace of saved items is
    logged only when the saver succeeded. The collection and the other
    fields are kept. *)
Theorem Close_marks_closed (correlationId : string) (m : machine) :
  no_writer m ->
  match _saver (this m) with
  | None =>
      Save correlationId m = Ret None m /\
      Close correlationId m =
        Ret None (mkMachine (with_opened false (this m)) (world m) (calls m))
  | Some s =>
      let r := ISaver_Save s correlationId (_items (this m)) (world m) in
      let made := saved_trace correlationId (_items (this m)) (fst r)
                  ++ CallSave correlationId (_items (this m)) :: calls m in
      Save correlationId m = Ret (fst r) (mkMachine (this m) (snd r) made) /\
      Close correlationId m =
        Ret (fst r) (mkMachine (with_opened false (this m)) (snd r) made)
  end.
Proof.
  intros Hw. destruct (_saver (this m)) as [s|] eqn:Hs.
  - cbv zeta.
    destruct (ISaver_Save s correlationId (_items (this m)) (world m))
      as [err w] eqn:Hsave.
    pose proof (Save_with_saver correlationId m s err w Hw Hs Hsave) as HS.
    split; [exact HS|]. unfold Close, bind. rewrite HS. reflexivity.
  - pose proof (Save_without_saver correlationId m Hw Hs) as HS.
    split; [exact HS|]. unfold Close, bind. rewrite HS. reflexivity.
Qed.

End MemoryPersistenceProperties.

Section ClearProperties.
Context `{RT : GoRuntime}.

(** *** Clear *)

Lemma Clear_from_free_lock (correlationId : string) (m : machine) :
  lock_free m ->
  Clear correlationId m =
    Block (mkMachine
             (with_lockMutex (RWMutex.mk true 0) (with_items [] (this m)))
             (world m)
             (CallTrace correlationId "Cleared items" [] :: calls m)).
Proof.
  intros Hfree. destruct_machine m. reflexivity.
Qed.

(** C4. On a store whose lock is free, [Clear] takes the write lock,
    empties the collection, logs, and then stops inside [Save], whose
    [RLock] waits for the write lock that [Clear] itself holds: the
    saver is not called, the world is untouched, nothing is returned and
    the write lock stays held. *)
Theorem Clear_blocks_before_saving (correlationId : string) (m : machine) :
  lock_free m ->
  exists m',
    Clear correlationId m = Block m' /\
    _items (this m') = [] /\
    world m' = world m /\
    calls m' = CallTrace correlationId "Cleared items" [] :: calls m /\
    RWMutex.writer (_lockMutex (this m')) = true.
Proof.
  intros Hfree. eexists. split; [apply Clear_from_free_lock; exact Hfree|].
  repeat split.
Qed.

(** C10. Whatever the state, [Clear] does not return: while somebody
    holds the lock it waits in [Lock], and once it has the write lock it
    waits in the [RLock] of its own call of [Save]. At that point the
    lock is not free. *)
Theorem Clear_never_returns (correlationId : string) (m : machine) :
  exists m',
    Clear correlationId m = Block m' /\
    _lockMutex (this m') <> RWMutex.zero.
Proof.
  destruct (Lock_zero_or_parked (_lockMutex (this m))) as [Hz | Hp].
  - rewrite (Clear_from_free_lock correlationId m Hz).
    eexists; split; [reflexivity|]. simpl. discriminate.
  - exists m. unfold Clear, bind, on_lock. rewrite Hp. split; [reflexivity|].
    intros Hz. rewrite Hz in Hp. discriminate.
Qed.

(** After [Clear] has stopped, the write lock is never released: every
    later [Save], [Open], [Close] and [Clear] on the store waits too. *)
Lemma store_unusable_after_Clear (correlationId c' : string) (m m' : machine) :
  lock_free m ->
  Clear correlationId m = Block m' ->
  Save c' m' = Block m' /\ Open c' m' = Block m' /\
  Close c' m' = Block m' /\ Clear c' m' = Block m'.
Proof.
  intros Hfree HC. rewrite (Clear_from_free_lock _ _ Hfree) in HC.
  injection HC as <-. repeat split.
Qed.

End ClearProperties.

Section LoadProperties.
Context `{RT : GoRuntime}.

(** *** Constructors and the prototype *)

(** C2. [NewEmptyMemoryPersistence] records the prototype, while the
    store that [NewMemoryPersistence] returns for a non-nil prototype has
    a nil [_prototype]. *)
Theorem NewMemoryPersistence_loses_prototype (t : reflect_Type)
    (loader : option ILoader) (saver : option ISaver) :
  (exists mp, NewEmptyMemoryPersistence (Some t) = Some mp /\
              _prototype mp = Some t) /\
  (exists mp, NewMemoryPersistence (Some t) loader saver = Some mp /\
              _prototype mp = None /\
              _loader mp = loader /\ _saver mp = saver /\ _items mp = []).
Proof.
  split; eexists; (split; [reflexivity|]); repeat split.
Qed.

(** With a nil [_prototype], the first loaded item that can be
    marshalled makes [load] panic in [reflect.New]; [Open] releases the
    lock and the store stays closed, its collection replaced by nils. *)
Lemma Open_nil_prototype_panics (correlationId : string) (m : machine)
    (l : ILoader) (v : Any) (rest : list Any) (b : Bytes) (w : World) :
  lock_free m ->
  _prototype (this m) = None ->
  _loader (this m) = Some l ->
  ILoader_Load l correlationId (world m) = (Some (v :: rest), None, w) ->
  json_Marshal (ToNullableMap v) = inl b ->
  exists m',
    Open correlationId m = Panic "reflect: New(nil)" m' /\
    _items (this m') = replicate (S (length rest)) nil_value /\
    IsOpen (this m') = IsOpen (this m).
Proof.
  intros Hfree Hp Hl Hload Hm. destruct_machine m.
  eexists. run. rewrite Hload. simpl. unfold bind. rewrite Hm. simpl.
  repeat split.
Qed.

(** *** The loop of [load] *)

Lemma load_range_all (t : reflect_Type) (items : list Any) :
  Forall marshals items ->
  forall (done : list Any) (c : MemoryPersistence) (w : World) (cs : list call),
    _prototype c = Some t ->
    _items c = done ++ replicate (length items) nil_value ->
    exists xs,
      Forall2 (stored_for t) items xs /\
      load_range (length done) items (mkMachine c w cs) =
        Ret tt (mkMachine (with_items (done ++ xs) c) w cs).
Proof.
  induction 1 as [|v rest [b Hb] Hrest IH]; intros done c w cs Hp Hi.
  - exists []. split; [constructor|]. simpl in *.
    destruct c; simpl in *; subst; reflexivity.
  - simpl. rewrite Hb.
    unfold bind, get_this, new_value, assign_item; simpl. rewrite Hp. simpl.
    unfold bind, get_this, ret; simpl.
    destruct (decide (length done < length (_items c))) as [_|Hn].
    2:{ exfalso. apply Hn. rewrite Hi, length_app. simpl. lia. }
    unfold modify_this; simpl.
    set (x := fst (json_Unmarshal b (reflect_New t))).
    destruct (IH (done ++ [x])
                (with_items (<[length done := x]> (_items c)) c) w cs)
      as (xs & Hxs & Hrun).
    + exact Hp.
    + simpl. rewrite Hi.
      replace (length done) with (length done + 0) at 1 by lia.
      rewrite insert_app_r. simpl. rewrite <- app_assoc. reflexivity.
    + exists (x :: xs). split.
      * constructor; [exists b; auto | exact Hxs].
      * rewrite length_app in Hrun. simpl in Hrun.
        replace (length done + 1) with (S (length done)) in Hrun by lia.
        rewrite Hrun. rewrite <- app_assoc. reflexivity.
Qed.

(** C8. When every loaded item can be marshalled and the prototype is
    set, [Open] returns no error and opens the store even if
    [json.Unmarshal] reports an error for a loaded item [v]: the error is
    dropped, and the collection holds, at the place of [v], the value
    that [json.Unmarshal] left. *)
Theorem Open_ignores_unmarshal_error (correlationId : string) (m : machine)
    (l : ILoader) (t : reflect_Type) (before after : list Any) (v : Any)
    (b : Bytes) (e : error) (w : World) :
  lock_free m ->
  _prototype (this m) = Some t ->
  _loader (this m) = Some l ->
  ILoader_Load l correlationId (world m) = (Some (before ++ v :: after), None, w) ->
  Forall marshals (before ++ after) ->
  json_Marshal (ToNullableMap v) = inl b ->
  snd (json_Unmarshal b (reflect_New t)) = Some e ->
  exists m' xs ys,
    Open correlationId m = Ret None m' /\
    IsOpen (this m') = true /\
    _items (this m') = xs ++ fst (json_Unmarshal b (reflect_New t)) :: ys /\
    Forall2 (stored_for t) before xs /\
    Forall2 (stored_for t) after ys.
Proof.
  intros Hfree Hp Hl Hload Hall Hb _. destruct_machine m.
  apply Forall_app in Hall as [Hbefore Hafter].
  assert (Hitems : Forall marshals (before ++ v :: after)).
  { apply Forall_app; split; [exact Hbefore|]. constructor; [exists b; exact Hb|exact Hafter]. }
  set (c0 := mkMemoryPersistence
               (replicate (length (before ++ v :: after)) nil_value)
               (Some l) _saver0 _opened0 (Some t) (RWMutex.mk true 0)).
  destruct (load_range_all t _ Hitems [] c0 w (CallLoad correlationId :: calls0))
    as (zs & Hzs & Hrun); [reflexivity|reflexivity|].
  apply Forall2_app_inv_l in Hzs as (xs & rest & Hxs & Hrest & ->).
  apply Forall2_cons_inv_l in Hrest as (x & ys & (b' & Hb' & ->) & Hys & ->).
  rewrite Hb in Hb'. injection Hb' as <-.
  exists (mkMachine
            (mkMemoryPersistence (xs ++ fst (json_Unmarshal b (reflect_New t)) :: ys)
               (Some l) _saver0 true (Some t) RWMutex.zero)
            w
            (CallTrace correlationId "Loaded %d items"
               [length (xs ++ fst (json_Unmarshal b (reflect_New t)) :: ys)]
             :: CallLoad correlationId :: calls0)), xs, ys.
  split; [|repeat split; assumption].
  run. rewrite Hload. simpl. unfold bind.
  match goal with
  | |- context [load_range 0 ?a ?st] =>
      change (load_range 0 a st)
        with (load_range 0 a (mkMachine c0 w (CallLoad correlationId :: calls0)))
  end.
  simpl in Hrun. rewrite Hrun. reflexivity.
Qed.

End LoadProperties.

Section FilePersistenceProperties.
Context `{CO : Collaborators}.

(** *** Constructors of the file-backed stores *)

(** The guard of the fallback compares the address of the by-value
    parameter with nil. *)
Lemma persister_address_not_nil (persister : JsonFilePersister) :
  is_nil (address_of persister) = false.
Proof. reflexivity. Qed.

(** Both constructors build the store from the persister they are
    given, whatever it is: that value is kept as [_persister] and its
    address is the loader and the saver. *)
Lemma file_constructors_use_the_argument (prototype : option reflect_Type)
    (persister : JsonFilePersister) :
  NewFilePersistence prototype persister =
    match NewMemoryPersistence prototype
            (as_ILoader (ref persister)) (as_ISaver (ref persister)) with
    | None => Panics "runtime error: invalid memory address or nil pointer dereference"
    | Some mp => Returns (mkFilePersistence mp persister)
    end
  /\
  NewIdentifiableFilePersistence prototype persister =
    match NewIdentifiableMemoryPersistence prototype
            (as_ILoader (ref persister)) (as_ISaver (ref persister)) with
    | None => Panics "runtime error: invalid memory address or nil pointer dereference"
    | Some imp => Returns (mkIdentifiableFilePersistence imp persister)
    end
  /\
  NewFilePersistence None persister =
    Panics "runtime error: invalid memory address or nil pointer dereference".
Proof. repeat split. Qed.


(** *** Configure *)

(** [FilePersistence.Configure] hands the parameters to the persister
    of the store. *)
Lemma FilePersistence_Configure_forwards (conf : ConfigParams) (c : FilePersistence) :
  FilePersistence_persister (FilePersistence_Configure conf c) =
    JsonFilePersister_Configure conf (FilePersistence_persister c) /\
  FilePersistence_MemoryPersistence (FilePersistence_Configure conf c) =
    FilePersistence_MemoryPersistence c.
Proof. split; reflexivity. Qed.

(** C3. [IdentifiableFilePersistence.Configure] calls itself before
    anything else, so whatever room the stack has, the call ends with the
    runtime's stack overflow, and the persister of the store has not been
    configured. *)
Theorem IdentifiableFilePersistence_Configure_overflows (stack : nat)
    (config : ConfigParams) (c : IdentifiableFilePersistence) :
  IdentifiableFilePersistence_Configure stack config c =
    Fatal "runtime: goroutine stack exceeds 1000000000-byte limit" c.
Proof.
  induction stack as [|stack IH]; simpl; [reflexivity|].
  rewrite IH. reflexivity.
Qed.

End FilePersistenceProperties.

(** * The stores at work *)
Module Examples.
Import Fixture.

(** [Open] on an unreadable medium, for a closed store that holds one
    record. *)
Lemma Open_loader_error_witness :
  exists m',
    Open "123" (start (wired [dummy "1" 7]) corrupt)
      = Ret (Some "medium unreadable") m' /\
    _items (this m') = [dummy "1" 7] /\
    IsOpen (this m') = false.
Proof.
  destruct (Open_loader_error "123" (start (wired [dummy "1" 7]) corrupt)
              medium_loader None "medium unreadable" corrupt)
    as (m' & HO & Hi & Ho & _); [reflexivity|reflexivity|reflexivity|].
  exists m'. split; [exact HO|]. split; [exact Hi|exact Ho].
Defined.

(** [Open] on a medium that holds nothing. *)
Lemma Open_keeps_collection_witness :
  Open "123" (start (wired [dummy "1" 7]) absent) =
    Ret None
      (mkMachine (with_opened true (wired [dummy "1" 7])) absent [CallLoad "123"]).
Proof.
  exact (proj1 (proj2 (Open_keeps_collection "123"
                         (start (wired [dummy "1" 7]) absent) eq_refl))
           medium_loader absent eq_refl eq_refl).
Defined.

(** [Open] on a medium that holds an empty list, for a store that holds a
    record: no error, the store is open, and the record is gone. *)
Lemma Open_on_empty_medium_drops_collection :
  exists m',
    Open "123" (start (wired [dummy "9" 9]) (holding [])) = Ret None m' /\
    IsOpen (this m') = true /\
    _items (this m') <> _items (wired [dummy "9" 9]).
Proof.
  eexists. split; [reflexivity|]. split; [reflexivity|]. simpl. discriminate.
Defined.

(** [Save] of a two-record collection to a writable medium. *)
Lemma Save_passes_current_items_witness :
  Save "123" (start (wired [dummy "1" 7; dummy "2" 8]) absent) =
    Ret None
      (mkMachine (wired [dummy "1" 7; dummy "2" 8])
         (mkMedium (Some [dummy "1" 7; dummy "2" 8]) false)
         [CallTrace "123" "Saved %d items" [2];
          CallSave "123" [dummy "1" 7; dummy "2" 8]]).
Proof.
  apply (Save_passes_current_items "123"
           (start (wired [dummy "1" 7; dummy "2" 8]) absent)).
  reflexivity.
Defined.

(** [Close] of an open store whose medium cannot be written. *)
Lemma Close_marks_closed_witness :
  Save "123" (start (with_opened true (wired [dummy "1" 7])) corrupt) =
    Ret (Some "medium unwritable")
      (mkMachine (with_opened true (wired [dummy "1" 7])) corrupt
         [CallSave "123" [dummy "1" 7]]) /\
  Close "123" (start (with_opened true (wired [dummy "1" 7])) corrupt) =
    Ret (Some "medium unwritable")
      (mkMachine (wired [dummy "1" 7]) corrupt [CallSave "123" [dummy "1" 7]]).
Proof.
  exact (Close_marks_closed "123"
           (start (with_opened true (wired [dummy "1" 7])) corrupt) eq_refl).
Defined.


Example Close_with_failing_saver :
  Close "123" (start (with_opened true (wired [dummy "1" 7])) corrupt) =
    Ret (Some "medium unwritable")
      (mkMachine (wired [dummy "1" 7]) corrupt [CallSave "123" [dummy "1" 7]]).
Proof. reflexivity. Qed.

(** [Clear] on a store with a free lock. *)
Lemma Clear_blocks_before_saving_witness :
  exists m',
    Clear "123" (start (wired [dummy "1" 7]) absent) = Block m' /\
    _items (this m') = [] /\
    world m' = absent /\
    calls m' = [CallTrace "123" "Cleared items" []] /\
    RWMutex.writer (_lockMutex (this m')) = true.
Proof.
  apply (Clear_blocks_before_saving "123" (start (wired [dummy "1" 7]) absent)).
  reflexivity.
Defined.

Example Clear_twice :
  exists m',
    Clear "123" (start (wired [dummy "1" 7]) absent) = Block m' /\
    Clear "123" m' = Block m'.
Proof. eexists. split; reflexivity. Qed.

(** A store made by [NewMemoryPersistence] with the prototype [Dummy]
    panics on the first record it loads. *)
Example Open_after_NewMemoryPersistence :
  exists mp,
    NewMemoryPersistence (Some Dummy) (Some medium_loader) (Some medium_saver)
      = Some mp /\
    Open "123" (start mp (mkMedium (Some [dummy "1" 7]) false)) =
      Panic "reflect: New(nil)"
        (mkMachine (with_items [VNil] mp)
           (mkMedium (Some [dummy "1" 7]) false) [CallLoad "123"]).
Proof. eexists. split; reflexivity. Qed.

(** [Open] with a record that does not fit the prototype: the store
    opens and holds the record with [Count] 0. *)
Lemma Open_ignores_unmarshal_error_witness :
  exists m' xs ys,
    Open "123" (start (wired []) (mkMedium (Some [dummy "1" 7; mistyped]) false))
      = Ret None m' /\
    IsOpen (this m') = true /\
    _items (this m') = xs ++ dummy "2" 0 :: ys /\
    Forall2 (stored_for Dummy) [dummy "1" 7] xs /\
    Forall2 (stored_for Dummy) [] ys.
Proof.
  apply (Open_ignores_unmarshal_error "123"
           (start (wired []) (mkMedium (Some [dummy "1" 7; mistyped]) false))
           medium_loader Dummy [dummy "1" 7] [] mistyped
           (JObject [("Id", JString "2"); ("Count", JString "abc")])
           "json: cannot unmarshal string into Go struct field"
           (mkMedium (Some [dummy "1" 7; mistyped]) false)).
  - reflexivity.
  - reflexivity.
  - reflexivity.
  - reflexivity.
  - constructor; [|constructor]. eexists. reflexivity.
  - reflexivity.
  - reflexivity.
Defined.

Example Open_with_mistyped_record :
  Open "123" (start (wired []) (mkMedium (Some [dummy "1" 7; mistyped]) false)) =
    Ret None
      (mkMachine (with_opened true (wired [dummy "1" 7; dummy "2" 0]))
         (mkMedium (Some [dummy "1" 7; mistyped]) false)
         [CallTrace "123" "Loaded %d items" [2]; CallLoad "123"]).
Proof. reflexivity. Qed.

(** A persister with a path is kept as it is; so is the zero value. *)
Example NewFilePersistence_keeps_argument :
  exists mp,
    NewFilePersistence (Some Dummy) (mkPersister "data.json") =
      Returns (mkFilePersistence mp (mkPersister "data.json")) /\
    _prototype mp = None.
Proof. eexists. split; reflexivity. Qed.

Example Configure_with_room_for_1000_frames :
  forall c : IdentifiableFilePersistence,
    IdentifiableFilePersistence_Configure 1000 [("path", "data.json")] c =
      Fatal "runtime: goroutine stack exceeds 1000000000-byte limit" c.
Proof. intros c. reflexivity. Qed.

End Examples.

(** * Further properties of the stores *)

Section LoadLoop.
Context `{RT : GoRuntime}.

(** The loop converts a prefix of marshallable items and goes on with the
    rest. *)
Lemma load_range_prefix (t : reflect_Type) (before : list Any) :
  Forall marshals before ->
  forall (rest done : list Any) (c : MemoryPersistence) (w : World) (cs : list call),
    _prototype c = Some t ->
    _items c = done ++ replicate (length before + length rest) nil_value ->
    exists xs,
      Forall2 (stored_for t) before xs /\
      load_range (length done) (before ++ rest) (mkMachine c w cs) =
        load_range (length done + length before) rest
          (mkMachine
             (with_items (done ++ xs ++ replicate (length rest) nil_value) c) w cs).
Proof.
  induction 1 as [|v before [b Hb] Hbefore IH]; intros rest done c w cs Hp Hi.
  - exists []. split; [constructor|]. simpl in *.
    rewrite Nat.add_0_r. destruct c; simpl in *; subst; reflexivity.
  - simpl. rewrite Hb.
    unfold bind, get_this, new_value, assign_item; simpl. rewrite Hp. simpl.
    unfold bind, get_this, ret; simpl.
    destruct (decide (length done < length (_items c))) as [_|Hn].
    2:{ exfalso. apply Hn. rewrite Hi, length_app. simpl. lia. }
    unfold modify_this; simpl.
    set (x := fst (json_Unmarshal b (reflect_New t))).
    destruct (IH rest (done ++ [x])
                (with_items (<[length done := x]> (_items c)) c) w cs)
      as (xs & Hxs & Hrun).
    + exact Hp.
    + simpl. rewrite Hi.
      replace (length done) with (length done + 0) at 1 by lia.
      rewrite insert_app_r. simpl. rewrite <- app_assoc. reflexivity.
    + exists (x :: xs). split.
      * constructor; [exists b; auto | exact Hxs].
      * rewrite length_app in Hrun. simpl in Hrun.
        replace (length done + 1) with (S (length done)) in Hrun by lia.
        rewrite Hrun. simpl length.
        replace (length done + S (length before))
          with (S (length done) + length before) by lia.
        rewrite <- app_assoc. reflexivity.
Qed.

(** Whatever the items, the loop returns or panics with one of its two
    panics; it writes [_items] only, in place, and makes no call. *)
Lemma load_range_frame (items : list Any) :
  forall (i : nat) (m : machine),
    i + length items <= length (_items (this m)) ->
    match load_range i items m with
    | Ret _ m' =>
        length (_items (this m')) = length (_items (this m)) /\
        this m' = with_items (_items (this m')) (this m) /\
        world m' = world m /\ calls m' = calls m
    | Panic msg m' =>
        load_panic msg /\
        length (_items (this m')) = length (_items (this m)) /\
        this m' = with_items (_items (this m')) (this m) /\
        world m' = world m /\ calls m' = calls m
    | Fatal _ _ | Block _ => False
    end.
Proof.
  induction items as [|v rest IH]; intros i m Hlen.
  - simpl. unfold ret. destruct m as [[] ? ?]; repeat split.
  - simpl. destruct (json_Marshal (ToNullableMap v)) as [b|e].
    2:{ unfold panic. destruct m as [[] ? ?]. split; [left; reflexivity|]. repeat split. }
    unfold bind at 1, get_this. unfold bind at 1, new_value.
    destruct (_prototype (this m)) as [t|].
    2:{ unfold panic. destruct m as [[] ? ?]. split; [right; reflexivity|]. repeat split. }
    unfold ret. unfold bind at 1, assign_item. unfold bind at 1, get_this.
    destruct (decide (i < length (_items (this m)))) as [_|Hn].
    2:{ exfalso. apply Hn. simpl in Hlen. lia. }
    unfold modify_this.
    set (x := fst (json_Unmarshal b (reflect_New t))).
    set (m1 := mkMachine (with_items (<[i:=x]> (_items (this m))) (this m))
                 (world m) (calls m)).
    specialize (IH (S i) m1).
    assert (Hlen1 : S i + length rest <= length (_items (this m1))).
    { unfold m1; simpl. rewrite length_insert. simpl in Hlen. lia. }
    specialize (IH Hlen1).
    assert (Hl1 : length (_items (this m1)) = length (_items (this m))).
    { unfold m1; simpl. apply length_insert. }
    destruct (load_range (S i) rest m1) as [[] m'|msg m'|msg m'|m']; try exact IH.
    + destruct IH as (H1 & H2 & H3 & H4). rewrite H1, Hl1.
      split; [reflexivity|]. split; [|split; assumption].
      rewrite H2. destruct m as [[] ? ?]; reflexivity.
    + destruct IH as (H0 & H1 & H2 & H3 & H4). rewrite H1, Hl1.
      split; [exact H0|]. split; [reflexivity|]. split; [|split; assumption].
      rewrite H2. destruct m as [[] ? ?]; reflexivity.
Qed.

End LoadLoop.

Section OpenProperties.
Context `{RT : GoRuntime}.

(** [Open] when every loaded item can be marshalled. *)
Lemma Open_loaded (correlationId : string) (m : machine) (l : ILoader)
    (t : reflect_Type) (items : list Any) (w : World) :
  lock_free m ->
  _prototype (this m) = Some t ->
  _loader (this m) = Some l ->
  ILoader_Load l correlationId (world m) = (Some items, None, w) ->
  Forall marshals items ->
  exists xs,
    Forall2 (stored_for t) items xs /\
    Open correlationId m =
      Ret None
        (mkMachine (with_opened true (with_items xs (this m))) w
           (CallTrace correlationId "Loaded %d items" [length items]
            :: CallLoad correlationId :: calls m)).
Proof.
  intros Hfree Hp Hl Hload Hitems. destruct_machine m.
  set (c0 := mkMemoryPersistence (replicate (length items) nil_value)
               (Some l) _saver0 _opened0 (Some t) (RWMutex.mk true 0)).
  destruct (load_range_all t _ Hitems [] c0 w (CallLoad correlationId :: calls0))
    as (xs & Hxs & Hrun); [reflexivity|reflexivity|].
  exists xs. split; [exact Hxs|].
  run. rewrite Hload. simpl. unfold bind.
  match goal with
  | |- context [load_range 0 ?a ?st] =>
      change (load_range 0 a st)
        with (load_range 0 a (mkMachine c0 w (CallLoad correlationId :: calls0)))
  end.
  simpl in Hrun. rewrite Hrun. simpl.
  rewrite <- (Forall2_length _ _ _ Hxs). reflexivity.
Qed.

(** X1. On a store whose [_prototype] is set, when the loader returns
    items without an error and each of them can be marshalled, [Open]
    replaces the whole collection: the new one
    has one record per loaded item, in the loader's order, each being what
    [json.Unmarshal] made of that item; nothing of the old collection is
    kept. The store is open, the lock is free again, and the calls made
    are one [Load] and one trace with the number of items. *)
Theorem Open_replaces_collection (correlationId : string) (m : machine)
    (l : ILoader) (t : reflect_Type) (items : list Any) (w : World) :
  lock_free m ->
  _prototype (this m) = Some t ->
  _loader (this m) = Some l ->
  ILoader_Load l correlationId (world m) = (Some items, None, w) ->
  Forall marshals items ->
  exists m',
    Open correlationId m = Ret None m' /\
    Forall2 (stored_for t) items (_items (this m')) /\
    length (_items (this m')) = length items /\
    IsOpen (this m') = true /\
    lock_free m' /\
    world m' = w /\
    calls m' = CallTrace correlationId "Loaded %d items" [length items]
               :: CallLoad correlationId :: calls m.
Proof.
  intros Hfree Hp Hl Hload Hitems.
  destruct (Open_loaded correlationId m l t items w Hfree Hp Hl Hload Hitems)
    as (xs & Hxs & HO).
  eexists. split; [exact HO|]. simpl.
  split; [exact Hxs|]. split; [symmetry; exact (Forall2_length _ _ _ Hxs)|].
  repeat split. exact Hfree.
Qed.

(** X2. On a store whose [_prototype] is set, when the item at some
    position cannot be marshalled (and the ones before it can), [Open]
    panics with the message of [load]. The deferred [Unlock] has run, so the
    lock is free; the store is as open or closed as before; but the old
    collection is gone: the slice has the length of the loaded list, with
    the records converted so far followed by nils. *)
Theorem Open_marshal_failure (correlationId : string) (m : machine)
    (l : ILoader) (t : reflect_Type) (before after : list Any) (v : Any)
    (e : error) (w : World) :
  lock_free m ->
  _prototype (this m) = Some t ->
  _loader (this m) = Some l ->
  ILoader_Load l correlationId (world m) = (Some (before ++ v :: after), None, w) ->
  Forall marshals before ->
  json_Marshal (ToNullableMap v) = inr e ->
  exists xs,
    Forall2 (stored_for t) before xs /\
    Open correlationId m =
      Panic "MemoryPersistence.Load Error can't convert from Json to any type"
        (mkMachine
           (with_items (xs ++ replicate (S (length after)) nil_value) (this m))
           w (CallLoad correlationId :: calls m)).
Proof.
  intros Hfree Hp Hl Hload Hbefore Hv. destruct_machine m.
  set (c0 := mkMemoryPersistence
               (replicate (length (before ++ v :: after)) nil_value)
               (Some l) _saver0 _opened0 (Some t) (RWMutex.mk true 0)).
  destruct (load_range_prefix t before Hbefore (v :: after) [] c0 w
              (CallLoad correlationId :: calls0))
    as (xs & Hxs & Hrun); [reflexivity| |].
  { unfold c0; simpl. rewrite length_app. reflexivity. }
  exists xs. split; [exact Hxs|].
  run. rewrite Hload. simpl. unfold bind.
  match goal with
  | |- context [load_range 0 ?a ?st] =>
      change (load_range 0 a st)
        with (load_range 0 a (mkMachine c0 w (CallLoad correlationId :: calls0)))
  end.
  simpl in Hrun. rewrite Hrun. rewrite Hv. reflexivity.
Qed.

(** X3. When the loader returns an empty, non-nil list, [Open] empties
    the collection and opens the store, whatever the prototype, nil
    included: no item reaches [reflect.New]. *)
Theorem Open_empty_list (correlationId : string) (m : machine) (l : ILoader)
    (w : World) :
  lock_free m ->
  _loader (this m) = Some l ->
  ILoader_Load l correlationId (world m) = (Some [], None, w) ->
  Open correlationId m =
    Ret None
      (mkMachine (with_opened true (with_items [] (this m))) w
         (CallTrace correlationId "Loaded %d items" [0]
          :: CallLoad correlationId :: calls m)).
Proof.
  intros Hfree Hl Hload. destruct_machine m.
  run. rewrite Hload. reflexivity.
Qed.

(** X4. From a free lock, [Open] returns or panics, and a panic is one of
    the two of the loop of [load] (never an index out of range). In both
    cases the lock is free again, the loader, saver and prototype are the
    ones before, and the saver has not been called. The store is open
    after a return without error; otherwise [IsOpen] is as before. *)
Theorem Open_leaves_lock_free (correlationId : string) (m : machine) :
  lock_free m ->
  match Open correlationId m with
  | Ret err m' =>
      lock_free m' /\ same_wiring (this m) (this m') /\ no_save_between m m' /\
      IsOpen (this m') = match err with None => true | Some _ => IsOpen (this m) end
  | Panic msg m' =>
      load_panic msg /\
      lock_free m' /\ same_wiring (this m) (this m') /\ no_save_between m m' /\
      IsOpen (this m') = IsOpen (this m)
  | Fatal _ _ | Block _ => False
  end.
Proof.
  intros Hfree. destruct_machine m. run.
  destruct _loader0 as [l|]; simpl.
  { destruct (ILoader_Load l correlationId world0) as [[items err] w] eqn:Hload.
    simpl. destruct err as [e|]; simpl.
    - repeat split. exists [CallLoad correlationId]. split; [reflexivity|].
      intros c i [H|[]]; discriminate.
    - destruct items as [items|]; simpl.
      2:{ repeat split. exists [CallLoad correlationId]. split; [reflexivity|].
          intros c i [H|[]]; discriminate. }
      unfold bind.
      match goal with
      | |- context [load_range 0 items ?st] =>
          pose proof (load_range_frame items 0 st) as HF;
          destruct (load_range 0 items st) as [[] m'|msg m'|msg m'|m']
      end; simpl in HF; rewrite length_replicate in HF;
        specialize (HF (le_n _)); try exact HF.
      + destruct HF as (_ & H2 & H3 & H4).
        destruct m' as [[its ld sv op pr lk] w' cs']; simpl in *.
        injection H2 as -> -> -> -> ->. subst. simpl.
        repeat split.
        exists [CallTrace correlationId "Loaded %d items" [length its];
                CallLoad correlationId].
        split; [reflexivity|].
        intros c i [H|[H|[]]]; discriminate.
      + destruct HF as (H0 & _ & H2 & H3 & H4).
        destruct m' as [[its ld sv op pr lk] w' cs']; simpl in *.
        injection H2 as -> -> -> -> ->. subst. simpl.
        split; [exact H0|]. repeat split.
        exists [CallLoad correlationId]. split; [reflexivity|].
        intros c i [H|[]]; discriminate. }
  repeat split. exists []. split; [reflexivity|]. intros c i [].
Qed.

(** [json.Unmarshal] is a function: an item has one stored form. *)
Lemma stored_for_unique (t : reflect_Type) (v x y : Any) :
  stored_for t v x -> stored_for t v y -> x = y.
Proof.
  intros (b & Hb & ->) (b' & Hb' & ->). rewrite Hb in Hb'.
  injection Hb' as <-. reflexivity.
Qed.

Lemma stored_as_themselves (t : reflect_Type) (items xs : list Any) :
  Forall (fun v => stored_for t v v) items ->
  Forall2 (stored_for t) items xs ->
  xs = items.
Proof.
  intros Hself H2. induction H2 as [|v x items xs Hvx H2 IH]; [reflexivity|].
  inversion Hself as [|? ? Hv Hrest]; subst.
  rewrite (stored_for_unique t v x v Hvx Hv), (IH Hrest). reflexivity.
Qed.

(** X5. Round trip. A store saves its collection without error; a store
    with a free lock then opens on the world the saver left, where the
    loader returns the list that was saved. If every record of the
    collection converts to itself (marshalled as a map and unmarshalled
    into the prototype), the second store holds the same collection, in
    the same order, and is open. *)
Theorem Save_then_Open_round_trip (correlationId correlationId' : string)
    (m m2 : machine) (s : ISaver) (l : ILoader) (t : reflect_Type) (w1 w2 : World) :
  no_writer m ->
  _saver (this m) = Some s ->
  ISaver_Save s correlationId (_items (this m)) (world m) = (None, w1) ->
  lock_free m2 ->
  _loader (this m2) = Some l ->
  _prototype (this m2) = Some t ->
  world m2 = w1 ->
  ILoader_Load l correlationId' w1 = (Some (_items (this m)), None, w2) ->
  Forall (fun v => stored_for t v v) (_items (this m)) ->
  exists m1 m3,
    Save correlationId m = Ret None m1 /\
    world m1 = w1 /\
    Open correlationId' m2 = Ret None m3 /\
    _items (this m3) = _items (this m) /\
    IsOpen (this m3) = true.
Proof.
  intros Hw Hs Hsave Hfree Hl Hp Hworld Hload Hself.
  pose proof (Save_with_saver correlationId m s None w1 Hw Hs Hsave) as HS.
  rewrite <- Hworld in Hload.
  assert (Hm : Forall marshals (_items (this m))).
  { eapply Forall_impl; [exact Hself|]. intros v (b & Hb & _). exists b. exact Hb. }
  destruct (Open_loaded correlationId' m2 l t _ w2 Hfree Hp Hl Hload Hm)
    as (xs & Hxs & HO).
  do 2 eexists. split; [exact HS|]. split; [reflexivity|].
  split; [exact HO|]. split; [|reflexivity].
  simpl. apply (stored_as_themselves t); assumption.
Qed.

(** X8. A store made by [NewEmptyMemoryPersistence] is a cache only:
    it is closed, empty and unlocked; [Open] opens it, [Save] returns and
    [Close] closes it again, each without error, without a call to the
    outside and without touching the world. *)
Theorem NewEmptyMemoryPersistence_is_a_cache (t : reflect_Type)
    (correlationId : string) (w : World) (cs : list call) :
  exists mp,
    NewEmptyMemoryPersistence (Some t) = Some mp /\
    IsOpen mp = false /\ _items mp = [] /\
    Open correlationId (mkMachine mp w cs)
      = Ret None (mkMachine (with_opened true mp) w cs) /\
    Save correlationId (mkMachine (with_opened true mp) w cs)
      = Ret None (mkMachine (with_opened true mp) w cs) /\
    Close correlationId (mkMachine (with_opened true mp) w cs)
      = Ret None (mkMachine mp w cs).
Proof.
  eexists. split; [reflexivity|]. repeat split.
Qed.

End OpenProperties.

Section FileStoreProperties.
Context `{CO : Collaborators}.

(** X6. [NewFilePersistence] keeps one copy of the persister in
    [_persister] and gives the address of another, its own parameter, to
    the store as loader and saver. [Configure] configures the first copy
    only: after it, the store still loads and saves through the persister
    as it was passed to the constructor, so [Save] calls that persister's
    [Save], not the configured one's. *)
Theorem FilePersistence_Configure_not_seen_by_Save (t : reflect_Type)
    (persister : JsonFilePersister) (conf : ConfigParams)
    (correlationId : string) (w : World) (cs : list call) :
  exists fp,
    NewFilePersistence (Some t) persister = Returns fp /\
    let configured := FilePersistence_Configure conf fp in
    let c := FilePersistence_MemoryPersistence configured in
    let r := JsonFilePersister_Save persister correlationId [] w in
    FilePersistence_persister configured
      = JsonFilePersister_Configure conf persister /\
    _loader c = Some {| ILoader_Load := JsonFilePersister_Load persister |} /\
    _saver c = Some {| ISaver_Save := JsonFilePersister_Save persister |} /\
    Save correlationId (mkMachine c w cs) =
      Ret (fst r)
        (mkMachine c (snd r)
           (saved_trace correlationId [] (fst r) ++ CallSave correlationId [] :: cs)).
Proof.
  eexists. split; [reflexivity|]. cbv zeta. repeat split.
  apply (Save_with_saver correlationId
           (mkMachine (mkMemoryPersistence [] _ _ false None RWMutex.zero) w cs)
           {| ISaver_Save := JsonFilePersister_Save persister |}).
  - reflexivity.
  - reflexivity.
  - simpl. destruct (JsonFilePersister_Save persister correlationId [] w); reflexivity.
Qed.

(** X7. A store made by [NewFilePersistence], whatever the prototype
    passed, cannot load a file that holds records: as soon as the
    persister returns a non-empty list whose first item can be marshalled,
    [Open] panics in [reflect.New] and the store stays closed. *)
Theorem FilePersistence_Open_panics_on_records (t : reflect_Type)
    (persister : JsonFilePersister) (correlationId : string) (w w' : World)
    (v : Any) (rest : list Any) (b : Bytes) :
  JsonFilePersister_Load persister correlationId w = (Some (v :: rest), None, w') ->
  json_Marshal (ToNullableMap v) = inl b ->
  exists fp m',
    NewFilePersistence (Some t) persister = Returns fp /\
    Open correlationId (mkMachine (FilePersistence_MemoryPersistence fp) w [])
      = Panic "reflect: New(nil)" m' /\
    IsOpen (this m') = false /\
    _items (this m') = replicate (S (length rest)) nil_value.
Proof.
  intros Hload Hb.
  destruct (Open_nil_prototype_panics correlationId
              (mkMachine (mkMemoryPersistence []
                            (Some {| ILoader_Load := JsonFilePersister_Load persister |})
                            (Some {| ISaver_Save := JsonFilePersister_Save persister |})
                            false None RWMutex.zero) w [])
              {| ILoader_Load := JsonFilePersister_Load persister |} v rest b w')
    as (m' & HO & Hi & Hopen); try reflexivity; try assumption.
  eexists. exists m'. split; [reflexivity|]. split; [exact HO|].
  split; [exact Hopen | exact Hi].
Qed.

End FileStoreProperties.

(** * The further properties at work *)
Module Scenarios.
Import Fixture.

Lemma Open_replaces_collection_witness :
  exists m',
    Open "123" (start (wired [dummy "9" 9]) (holding two_records)) = Ret None m' /\
    Forall2 (stored_for Dummy) two_records (_items (this m')) /\
    length (_items (this m')) = 2 /\
    IsOpen (this m') = true /\
    lock_free m' /\
    world m' = holding two_records /\
    calls m' = [CallTrace "123" "Loaded %d items" [2]; CallLoad "123"].
Proof.
  apply (Open_replaces_collection "123"
           (start (wired [dummy "9" 9]) (holding two_records))
           medium_loader Dummy two_records (holding two_records));
    try reflexivity.
  repeat constructor; eexists; reflexivity.
Defined.

Lemma Open_marshal_failure_witness :
  exists xs,
    Forall2 (stored_for Dummy) [dummy "1" 7] xs /\
    Open "123" (start (wired [dummy "9" 9])
                  (holding [dummy "1" 7; unmarshallable; dummy "2" 8])) =
      Panic "MemoryPersistence.Load Error can't convert from Json to any type"
        (mkMachine (wired (xs ++ [VNil; VNil]))
           (holding [dummy "1" 7; unmarshallable; dummy "2" 8])
           [CallLoad "123"]).
Proof.
  apply (Open_marshal_failure "123"
           (start (wired [dummy "9" 9])
              (holding [dummy "1" 7; unmarshallable; dummy "2" 8]))
           medium_loader Dummy [dummy "1" 7] [dummy "2" 8] unmarshallable
           "json: unsupported type: func()"
           (holding [dummy "1" 7; unmarshallable; dummy "2" 8]));
    try reflexivity.
  repeat constructor; eexists; reflexivity.
Defined.

Lemma Open_empty_list_witness :
  Open "123" (start (store [dummy "9" 9] (Some medium_loader) None None) (holding []))
    = Ret None
        (mkMachine
           (with_opened true (store [] (Some medium_loader) None None))
           (holding [])
           [CallTrace "123" "Loaded %d items" [0]; CallLoad "123"]).
Proof.
  apply (Open_empty_list "123"
           (start (store [dummy "9" 9] (Some medium_loader) None None) (holding []))
           medium_loader (holding [])); reflexivity.
Defined.

Lemma Open_leaves_lock_free_witness :
  match Open "123" (start (wired []) (holding [dummy "1" 7; unmarshallable])) with
  | Ret err m' =>
      lock_free m' /\ same_wiring (wired []) (this m') /\
      no_save_between (start (wired []) (holding [dummy "1" 7; unmarshallable])) m' /\
      IsOpen (this m') = match err with None => true | Some _ => false end
  | Panic msg m' =>
      load_panic msg /\
      lock_free m' /\ same_wiring (wired []) (this m') /\
      no_save_between (start (wired []) (holding [dummy "1" 7; unmarshallable])) m' /\
      IsOpen (this m') = false
  | Fatal _ _ | Block _ => False
  end.
Proof.
  apply (Open_leaves_lock_free "123"
           (start (wired []) (holding [dummy "1" 7; unmarshallable]))).
  reflexivity.
Defined.

Lemma Save_then_Open_round_trip_witness :
  exists m1 m3,
    Save "123" (start (wired two_records) absent) = Ret None m1 /\
    world m1 = holding two_records /\
    Open "456" (start (wired []) (holding two_records)) = Ret None m3 /\
    _items (this m3) = two_records /\
    IsOpen (this m3) = true.
Proof.
  apply (Save_then_Open_round_trip "123" "456"
           (start (wired two_records) absent)
           (start (wired []) (holding two_records))
           medium_saver medium_loader Dummy
           (holding two_records) (holding two_records));
    try reflexivity.
  repeat constructor; eexists; split; reflexivity.
Defined.

Lemma FilePersistence_Open_panics_on_records_witness :
  exists fp m',
    NewFilePersistence (Some Dummy) (mkPersister "data.json") = Returns fp /\
    Open "123" (mkMachine (FilePersistence_MemoryPersistence fp)
                  (holding two_records) [])
      = Panic "reflect: New(nil)" m' /\
    IsOpen (this m') = false /\
    _items (this m') = [VNil; VNil].
Proof.
  apply (FilePersistence_Open_panics_on_records (CO := collaborators)
           Dummy (mkPersister "data.json")
           "123" (holding two_records) (holding two_records)
           (dummy "1" 7) [dummy "2" 8]
           (JObject [("Id", JString "1"); ("Count", JNumber 7)]));
    reflexivity.
Defined.

(** A file store made with an empty path and then configured with a path
    still saves nowhere. *)
Example configured_path_is_not_used :
  exists fp,
    NewFilePersistence (Some Dummy) (mkPersister "") = Returns fp /\
    let configured := FilePersistence_Configure [("path", "data.json")] fp in
    FilePersistence_persister configured = mkPersister "data.json" /\
    Save "123" (mkMachine
                  (with_items two_records (FilePersistence_MemoryPersistence configured))
                  absent [])
      = Ret None
          (mkMachine
             (with_items two_records (FilePersistence_MemoryPersistence configured))
             absent
             [CallTrace "123" "Saved %d items" [2]; CallSave "123" two_records]).
Proof. eexists. split; [reflexivity|]. split; reflexivity. Qed.

End Scenarios.
